(** * ClusterFuzz bot tasks: the static task table and its execution strategies

    A shallow embedding of [src/clusterfuzz/_internal/bot/tasks/__init__.py]:
    the task classes ([TrustedTask], [UTask], [UTaskLocalExecutor],
    [PostprocessTask], [UworkerMainTask]), the factory [utask_factory], the
    table [COMMAND_MAP] and the two queries [is_multimachine_executed] and
    [get_multimachine_tasks].

    The bodies of the task modules, the helpers of the [utasks] package and
    the logger are collaborators of this file.  A method body is written as
    a finite tree of calls to them ([prog]); [run] gives such a tree its
    meaning for any behaviour of the collaborators ([handler]). *)

From Stdlib Require Import List String Bool Arith Lia.
Import ListNotations.
Local Open Scope string_scope.
Local Open Scope list_scope.

Set Implicit Arguments.

(** ** Exceptions and results *)

(** The exceptions this file can see.  [NotImplementedError] is raised by
    [BaseTask.execute], [KeyError] by a subscript on a dict, [Fault] stands
    for whatever a collaborator raises.  [UnknownTaskError] is the error the
    dispatch facade reports; the facade is not part of this file. *)
Inductive exn : Type :=
| NotImplementedError (msg : string)
| KeyError (key : string)
| UnknownTaskError (name : string)
| Fault (what : string).

Inductive result (A : Type) : Type :=
| Returned (a : A)
| Raised (e : exn).
Arguments Returned {A} a.
Arguments Raised {A} e.

Definition result_bind {A B} (r : result A) (k : A -> result B) : result B :=
  match r with
  | Returned a => k a
  | Raised e => Raised e
  end.

(** ** Python dicts with string keys

    A dict keeps its keys in insertion order and holds every key once.
    Assigning to a key that is present replaces the value where it stands;
    a new key goes to the end.  A dict display [{k1: v1, ..., kn: vn}]
    assigns its entries from left to right and never raises. *)
Module PyDict.
Section Dict.
Variable V : Type.

Definition dict := list (string * V).

Fixpoint dict_get (k : string) (d : dict) : option V :=
  match d with
  | [] => None
  | (k', v) :: d' => if String.eqb k k' then Some v else dict_get k d'
  end.

Fixpoint dict_set (k : string) (v : V) (d : dict) : dict :=
  match d with
  | [] => [(k, v)]
  | (k', v') :: d' =>
      if String.eqb k k' then (k', v) :: d' else (k', v') :: dict_set k v d'
  end.

Definition dict_keys (d : dict) : list string := map fst d.

(** Assigning entries one after the other to a dict [d]. *)
Definition assign_all (entries : list (string * V)) (d : dict) : dict :=
  fold_left (fun d kv => dict_set (fst kv) (snd kv) d) entries d.

Definition dict_display (entries : list (string * V)) : dict :=
  assign_all entries [].

(** The binding of [k] written last in [entries], if any. *)
Definition written_last (k : string) (entries : list (string * V))
  : option V :=
  dict_get k (rev entries).

(** [d[k]]: the value, or [KeyError]. *)
Definition subscript (d : dict) (k : string) : result V :=
  match dict_get k d with
  | Some v => Returned v
  | None => Raised (KeyError k)
  end.
End Dict.
End PyDict.
Import PyDict.

(** ** Task modules, classes and task objects *)

(** The modules imported at the top of the file, and the string ['none']
    that [PostprocessTask] and [UworkerMainTask] take as default module. *)
Inductive module : Type :=
| blame_task | impact_task | symbolize_task | unpack_task | upload_reports_task
| analyze_task | corpus_pruning_task | fuzz_task | minimize_task
| progression_task | regression_task | variant_task
| none_str.

(** The classes of the file.  [UTask] is defined twice; the second
    definition rebinds the name, so [UTask] below is the second one and
    [UTask_shadowed] the first, which no name refers to once the file is
    loaded. *)
Inductive class : Type :=
| BaseTask
| TrustedTask
| UTask_shadowed
| UTask
| UTaskLocalExecutor
| PostprocessTask
| UworkerMainTask.

Definition class_eqb (c d : class) : bool :=
  match c, d with
  | BaseTask, BaseTask | TrustedTask, TrustedTask
  | UTask_shadowed, UTask_shadowed | UTask, UTask
  | UTaskLocalExecutor, UTaskLocalExecutor
  | PostprocessTask, PostprocessTask | UworkerMainTask, UworkerMainTask => true
  | _, _ => false
  end.

(** Every class but [BaseTask] has [BaseTask] as its only base. *)
Definition base (c : class) : option class :=
  match c with
  | BaseTask => None
  | _ => Some BaseTask
  end.

Definition issubclass (c d : class) : bool :=
  class_eqb c d ||
  match base c with
  | Some b => class_eqb b d
  | None => false
  end.

(** A task object: its class and the [module] attribute set by
    [BaseTask.__init__]. *)
Record task : Type := new { cls : class; task_module : module }.

Definition isinstance (t : task) (c : class) : bool := issubclass (cls t) c.

(** [PostprocessTask()] and [UworkerMainTask()] with the default module. *)
Definition PostprocessTask_default : task := new PostprocessTask none_str.
Definition UworkerMainTask_default : task := new UworkerMainTask none_str.

(** Whether the table binds [task_name] to an object of exactly the class
    [c]. *)
Definition bound_to (cm : dict task) (c : class) (task_name : string) : bool :=
  match dict_get task_name cm with
  | Some t => class_eqb (cls t) c
  | None => false
  end.

(** ** The classification queries

    [COMMAND_MAP] is a global of the file; the queries read it and nothing
    else, so they take the table as an argument [cm]. *)

Definition is_multimachine_executed (cm : dict task) (task_name : string)
  : result bool :=
  result_bind (subscript cm task_name) (fun t =>
  Returned (isinstance t UTask)).

(** The list comprehension of [get_multimachine_tasks], over the keys still
    to visit. *)
Fixpoint multimachine_among (cm : dict task) (names : list string)
  : result (list string) :=
  match names with
  | [] => Returned []
  | task_name :: rest =>
      result_bind (is_multimachine_executed cm task_name) (fun b =>
      result_bind (multimachine_among cm rest) (fun l =>
      Returned (if b then task_name :: l else l)))
  end.

Definition get_multimachine_tasks (cm : dict task) : result (list string) :=
  multimachine_among cm (dict_keys cm).

(** ** Programs over collaborators

    [prog E A] is a method body: it returns, raises, writes a log line and
    goes on, or calls a collaborator [c : E X] and goes on with the answer.
    [logs.log] is kept apart from the other collaborators: it returns
    nothing the code looks at, and it is taken never to raise. *)
Inductive prog (E : Type -> Type) (A : Type) : Type :=
| Ret (a : A)
| Raise (e : exn)
| Log (line : string) (k : prog E A)
| Call (X : Type) (c : E X) (k : X -> prog E A).
Arguments Ret {E A} a.
Arguments Raise {E A} e.
Arguments Log {E A} line k.
Arguments Call {E A X} c k.

Fixpoint bind {E A B} (p : prog E A) (k : A -> prog E B) : prog E B :=
  match p with
  | Ret a => k a
  | Raise e => Raise e
  | Log s p' => Log s (bind p' k)
  | Call c f => Call c (fun x => bind (f x) k)
  end.

Definition call {E X} (c : E X) : prog E X := Call c Ret.
Definition log {E} (line : string) : prog E unit := Log line (Ret tt).

Declare Scope prog_scope.
Delimit Scope prog_scope with prog.
Notation "x <- p ;; k" := (bind p (fun x => k))
  (at level 61, p at next level, right associativity) : prog_scope.
Notation "p ;; k" := (bind p (fun _ => k))
  (at level 61, right associativity) : prog_scope.
Local Open Scope prog_scope.

(** What a run leaves behind: one entry per collaborator call or log line,
    in the order they happen. *)
Inductive event (E : Type -> Type) : Type :=
| ECall (X : Type) (c : E X)
| ELog (line : string).
Arguments ECall {E X} c.
Arguments ELog {E} line.

(** The collaborators' behaviour: an answer (or a fault) and a new world for
    every call in every world. *)
Definition handler (E : Type -> Type) (W : Type) : Type :=
  forall X, E X -> W -> result X * W.

Record outcome (E : Type -> Type) (W A : Type) : Type :=
  Outcome { res : result A; world : W; trace : list (event E) }.
Arguments Outcome {E W A} res world trace.

Definition before {E W A} (ev : event E) (o : outcome E W A) : outcome E W A :=
  Outcome (res o) (world o) (ev :: trace o).

Fixpoint run {E W A} (h : handler E W) (p : prog E A) (w : W)
  : outcome E W A :=
  match p with
  | Ret a => Outcome (Returned a) w []
  | Raise e => Outcome (Raised e) w []
  | Log s k => before (ELog s) (run h k w)
  | Call c k =>
      match h _ c w with
      | (Returned x, w') => before (ECall c) (run h (k x) w')
      | (Raised e, w') => Outcome (Raised e) w' [ECall c]
      end
  end.

(** How a method body ends.  Python hands [None] to the caller either way;
    the two ways are kept apart here because the spec tells them apart. *)
Inductive exit : Type :=
| BareReturn   (* a [return] statement without a value *)
| EndOfBody.   (* control reaches the end of the body *)

(** Follows the spec's words (sections 4.2 and 9): a pipeline cut short for
    want of a handoff is [Skipped], one that runs to its end is
    [Completed]. *)
Inductive Signal : Type := Completed | Skipped.

Definition signal_of (x : exit) : Signal :=
  match x with
  | BareReturn => Skipped
  | EndOfBody => Completed
  end.

(** ** The factory *)

Definition utask_factory {E} (task_module : module) (in_memory : bool)
  : prog E task :=
  if in_memory then
    log "Using memory for utasks." ;;
    Ret (new UTaskLocalExecutor task_module)
  else
    log "Using GCS for utasks." ;;
    Ret (new UTask task_module).

(** ** The execute methods *)

Section Execute.
(** Whatever Python object travels through the methods: task argument,
    job type, environment, download URL, uworker input and output. *)
Variable value : Type.

(** The calls the methods make: [execute_task] on a task module, and the
    helpers of the [utasks] package.  A helper that may return [None]
    answers with an [option]; [tworker_preprocess] returns [None] or a
    pair. *)
Inductive ext : Type -> Type :=
| execute_task (m : module) (task_argument job_type : value) : ext unit
| tworker_preprocess (m : module) (task_argument job_type uworker_env : value)
    : ext (option (value * value))
| uworker_main (input_download_url : value) : ext (option value)
| tworker_postprocess (input_path : value) : ext unit
| tworker_preprocess_no_io (m : module)
    (task_argument job_type uworker_env : value) : ext (option value)
| uworker_main_no_io (m : module) (uworker_input : value) : ext (option value)
| tworker_postprocess_no_io (m : module) (uworker_output uworker_input : value)
    : ext unit.

Definition BaseTask_execute (self : task)
    (task_argument job_type uworker_env : value) : prog ext exit :=
  Raise (NotImplementedError "Child class must implement.").

Definition TrustedTask_execute (self : task)
    (task_argument job_type uworker_env : value) : prog ext exit :=
  call (execute_task (task_module self) task_argument job_type) ;;
  Ret EndOfBody.

(** The first [UTask] (lines 65-77), shadowed by the second. *)
Definition UTask_shadowed_execute (self : task)
    (task_argument job_type uworker_env : value) : prog ext exit :=
  preprocess_result <-
    call (tworker_preprocess (task_module self) task_argument job_type
            uworker_env) ;;
  match preprocess_result with
  | None => Ret BareReturn
  | Some _ => Ret EndOfBody
  end.

Definition UTask_execute (self : task)
    (task_argument job_type uworker_env : value) : prog ext exit :=
  preprocess_result <-
    call (tworker_preprocess (task_module self) task_argument job_type
            uworker_env) ;;
  match preprocess_result with
  | None => Ret BareReturn
  | Some (input_download_url, _) =>
      call (uworker_main input_download_url) ;;
      log "Utask: done with preprocess and main." ;;
      Ret EndOfBody
  end.

Definition UTaskLocalExecutor_execute (self : task)
    (task_argument job_type uworker_env : value) : prog ext exit :=
  uworker_input <-
    call (tworker_preprocess_no_io (task_module self) task_argument job_type
            uworker_env) ;;
  match uworker_input with
  | None => Ret BareReturn
  | Some uworker_input =>
      uworker_output <-
        call (uworker_main_no_io (task_module self) uworker_input) ;;
      match uworker_output with
      | None => Ret BareReturn
      | Some uworker_output =>
          call (tworker_postprocess_no_io (task_module self) uworker_output
                  uworker_input) ;;
          log "Utask local: done." ;;
          Ret EndOfBody
      end
  end.

Definition PostprocessTask_execute (self : task)
    (task_argument job_type uworker_env : value) : prog ext exit :=
  let input_path := task_argument in
  call (tworker_postprocess input_path) ;;
  Ret EndOfBody.

Definition UworkerMainTask_execute (self : task)
    (task_argument job_type uworker_env : value) : prog ext exit :=
  let input_path := task_argument in
  call (uworker_main input_path) ;;
  Ret EndOfBody.

(** Method lookup: [task.execute(...)] runs the body of the object's
    class. *)
Definition execute (self : task) (task_argument job_type uworker_env : value)
  : prog ext exit :=
  match cls self with
  | BaseTask => BaseTask_execute
  | TrustedTask => TrustedTask_execute
  | UTask_shadowed => UTask_shadowed_execute
  | UTask => UTask_execute
  | UTaskLocalExecutor => UTaskLocalExecutor_execute
  | PostprocessTask => PostprocessTask_execute
  | UworkerMainTask => UworkerMainTask_execute
  end self task_argument job_type uworker_env.

(** The phase a helper call stands for. *)
Inductive phase : Type := Preprocess | Main | Postprocess.

Definition phase_of_call {X} (c : ext X) : option phase :=
  match c with
  | execute_task _ _ _ => None
  | tworker_preprocess _ _ _ _ | tworker_preprocess_no_io _ _ _ _ =>
      Some Preprocess
  | uworker_main _ | uworker_main_no_io _ _ => Some Main
  | tworker_postprocess _ | tworker_postprocess_no_io _ _ _ =>
      Some Postprocess
  end.

Definition phase_of (ev : event ext) : option phase :=
  match ev with
  | ECall c => phase_of_call c
  | ELog _ => None
  end.

(** The phases a run went through, in order. *)
Fixpoint phases (tr : list (event ext)) : list phase :=
  match tr with
  | [] => []
  | ev :: tr' =>
      match phase_of ev with
      | Some p => p :: phases tr'
      | None => phases tr'
      end
  end.

(** The signal of a run that returned. *)
Definition signal {W} (o : outcome ext W exit) : option Signal :=
  match res o with
  | Returned x => Some (signal_of x)
  | Raised _ => None
  end.
End Execute.

Arguments execute_task {value} m task_argument job_type.
Arguments tworker_preprocess {value} m task_argument job_type uworker_env.
Arguments uworker_main {value} input_download_url.
Arguments tworker_postprocess {value} input_path.
Arguments tworker_preprocess_no_io {value} m task_argument job_type uworker_env.
Arguments uworker_main_no_io {value} m uworker_input.
Arguments tworker_postprocess_no_io {value} m uworker_output uworker_input.

(** ** The table

    Loading the file evaluates the display of [COMMAND_MAP] entry by entry;
    [utask_factory] is always called with one argument, so [in_memory] takes
    its default. *)
Definition in_memory_default : bool := true.

Definition COMMAND_MAP_entries {E} : prog E (list (string * task)) :=
  analyze <- utask_factory analyze_task in_memory_default ;;
  let blame := new TrustedTask blame_task in
  corpus_pruning <- utask_factory corpus_pruning_task in_memory_default ;;
  fuzz <- utask_factory fuzz_task in_memory_default ;;
  let impact := new TrustedTask impact_task in
  minimize <- utask_factory minimize_task in_memory_default ;;
  progression <- utask_factory progression_task in_memory_default ;;
  regression <- utask_factory regression_task in_memory_default ;;
  let symbolize := new TrustedTask symbolize_task in
  let unpack := new TrustedTask unpack_task in
  let uworker_postprocess := PostprocessTask_default in
  let upload_reports := new TrustedTask upload_reports_task in
  let uworker_main := UworkerMainTask_default in
  variant <- utask_factory variant_task in_memory_default ;;
  Ret [ ("analyze", analyze);
        ("blame", blame);
        ("corpus_pruning", corpus_pruning);
        ("fuzz", fuzz);
        ("impact", impact);
        ("minimize", minimize);
        ("progression", progression);
        ("regression", regression);
        ("symbolize", symbolize);
        ("unpack", unpack);
        ("uworker_postprocess", uworker_postprocess);
        ("upload_reports", upload_reports);
        ("uworker_main", uworker_main);
        ("variant", variant) ].

(** The display evaluates its entries from left to right, then assigns
    them in that order. *)
Definition COMMAND_MAP_display {E} : prog E (dict task) :=
  entries <- COMMAND_MAP_entries ;;
  Ret (dict_display entries).

(** Loading calls no collaborator but the logger, so the table can be read
    off a run that has none. *)
Inductive noE : Type -> Type := .

Definition no_collaborator : handler noE unit :=
  fun X c => match c with end.

Definition COMMAND_MAP : dict task :=
  match res (run no_collaborator COMMAND_MAP_display tt) with
  | Returned cm => cm
  | Raised _ => []
  end.

(** The entries as the display writes them, before they are assigned. *)
Definition COMMAND_MAP_written : list (string * task) :=
  match res (run no_collaborator COMMAND_MAP_entries tt) with
  | Returned entries => entries
  | Raised _ => []
  end.

(** ** The dispatch facade *)

(** Modelled from the spec: [dispatch] of the Dispatch Facade (sections 4.1
    and 6), which is not in this file: it fails with [UnknownTaskError] if
    the name is absent from the registry, otherwise it forwards to the bound
    strategy's [execute] and returns what that returns. *)
Definition dispatch {value} (cm : dict task) (name : string)
    (task_argument job_type uworker_env : value) : prog (ext value) exit :=
  match dict_get name cm with
  | None => Raise (UnknownTaskError name)
  | Some strategy => execute strategy task_argument job_type uworker_env
  end.

(** ** The helpers of [utasks] over a Phase Contract and a store *)

Section UtasksModel.
Variables value S : Type.

(** Modelled from the spec: the Phase Contract of a task module (section
    6).  [preprocess] and [main] yield an artifact or nothing;
    [postprocess] and [executeTrusted] return nothing, so only their
    invocation is recorded ([collab] below). *)
Record PhaseContract : Type := {
  preprocess : value -> value -> value -> option value;
  main : value -> option value
}.

(** Modelled from the spec: the durable storage collaborator (section 6).
    A durable record carries the task module that produced the artifact
    (section 4.2, variant 4: the task is determined by data embedded in
    the artifact). *)
Record Storage : Type := {
  materialize : module * value -> S -> value * S;
  resolve : value -> S -> option (module * value)
}.

(** A record can be resolved right after it was materialized. *)
Definition round_trip (st : Storage) : Prop :=
  forall r s, resolve st (fst (materialize st r s)) (snd (materialize st r s))
              = Some r.

(** The invocations of the Phase Contract and of the store. *)
Inductive collab : Type :=
| c_executeTrusted (m : module) (argument jobType : value)
| c_preprocess (m : module) (argument jobType environment : value)
| c_main (m : module) (inputArtifact : value)
| c_postprocess (m : module) (outputArtifact : value)
| c_materialize (m : module) (artifact : value)
| c_resolve (locator : value).

Variable contract : module -> PhaseContract.
Variable st : Storage.

(** Modelled from the spec: the helpers of the [utasks] package, which are
    not in this file (section 4.2).  PREPROCESS runs [preprocess] and
    materializes the artifact, returning its locator; MAIN resolves the
    locator, runs [main] and materializes the second artifact; POSTPROCESS
    resolves the second locator and runs [postprocess].  The in-memory
    helpers run the same phases on values.  The world is the store and the
    invocations so far.  The second component of the pair that
    [tworker_preprocess] returns is not described by the spec and not read
    by the code; the locator stands there too. *)
Definition utasks_model : handler (ext value) (S * list collab) :=
  fun X c =>
    match c in ext _ X return S * list collab -> result X * (S * list collab)
    with
    | execute_task m a j => fun w =>
        (Returned tt, (fst w, snd w ++ [c_executeTrusted m a j]))
    | tworker_preprocess m a j e => fun w =>
        let l := snd w ++ [c_preprocess m a j e] in
        match preprocess (contract m) a j e with
        | None => (Returned None, (fst w, l))
        | Some art =>
            let ls := materialize st (m, art) (fst w) in
            (Returned (Some (fst ls, fst ls)),
             (snd ls, l ++ [c_materialize m art]))
        end
    | uworker_main loc => fun w =>
        let l := snd w ++ [c_resolve loc] in
        match resolve st loc (fst w) with
        | None => (Raised (Fault "locator does not resolve"), (fst w, l))
        | Some (m, art) =>
            let l := l ++ [c_main m art] in
            match main (contract m) art with
            | None => (Returned None, (fst w, l))
            | Some out =>
                let ls := materialize st (m, out) (fst w) in
                (Returned (Some (fst ls)),
                 (snd ls, l ++ [c_materialize m out]))
            end
        end
    | tworker_postprocess loc => fun w =>
        let l := snd w ++ [c_resolve loc] in
        match resolve st loc (fst w) with
        | None => (Raised (Fault "locator does not resolve"), (fst w, l))
        | Some (m, out) => (Returned tt, (fst w, l ++ [c_postprocess m out]))
        end
    | tworker_preprocess_no_io m a j e => fun w =>
        (Returned (preprocess (contract m) a j e),
         (fst w, snd w ++ [c_preprocess m a j e]))
    | uworker_main_no_io m inp => fun w =>
        (Returned (main (contract m) inp), (fst w, snd w ++ [c_main m inp]))
    | tworker_postprocess_no_io m out inp => fun w =>
        (Returned tt, (fst w, snd w ++ [c_postprocess m out]))
    end.

Definition is_materialize (c : collab) : bool :=
  match c with c_materialize _ _ => true | _ => false end.
Definition is_resolve (c : collab) : bool :=
  match c with c_resolve _ => true | _ => false end.
Definition is_postprocess (c : collab) : bool :=
  match c with c_postprocess _ _ => true | _ => false end.

Definition times (f : collab -> bool) (l : list collab) : nat :=
  List.length (filter f l).
End UtasksModel.

Arguments c_executeTrusted {value} m argument jobType.
Arguments c_preprocess {value} m argument jobType environment.
Arguments c_main {value} m inputArtifact.
Arguments c_postprocess {value} m outputArtifact.
Arguments c_materialize {value} m artifact.
Arguments c_resolve {value} locator.
Arguments is_materialize {value} c.
Arguments is_resolve {value} c.
Arguments is_postprocess {value} c.

(** ** What the collaborators answer *)

Section Answers.
Variables value W : Type.
Variable h : handler (ext value) W.

Definition answer {X} (c : ext value X) (w : W) : result X := fst (h c w).
Definition world_after {X} (c : ext value X) (w : W) : W := snd (h c w).

(** What a phase that may yield a handoff did. *)
Inductive handoff : Type := Artifact | Absent | Faulted.

Definition handoff_of {X} (r : result (option X)) : handoff :=
  match r with
  | Returned (Some _) => Artifact
  | Returned None => Absent
  | Raised _ => Faulted
  end.

(** Preprocess, as the strategy of [self] calls it, returns [None]. *)
Definition preprocess_absent (self : task)
    (task_argument job_type uworker_env : value) (w : W) : Prop :=
  match cls self with
  | UTask =>
      answer (tworker_preprocess (task_module self) task_argument job_type
                uworker_env) w = Returned None
  | UTaskLocalExecutor =>
      answer (tworker_preprocess_no_io (task_module self) task_argument
                job_type uworker_env) w = Returned None
  | _ => False
  end.

(** Preprocess, as the strategy of [self] calls it, returns its handoff,
    and main, called on that handoff, returns [None]. *)
Definition main_absent (self : task)
    (task_argument job_type uworker_env : value) (w : W) : Prop :=
  match cls self with
  | UTask =>
      let pre := tworker_preprocess (task_module self) task_argument job_type
                   uworker_env in
      exists input_download_url other,
        answer pre w = Returned (Some (input_download_url, other)) /\
        answer (uworker_main input_download_url) (world_after pre w)
        = Returned None
  | UTaskLocalExecutor =>
      let pre := tworker_preprocess_no_io (task_module self) task_argument
                   job_type uworker_env in
      exists uworker_input,
        answer pre w = Returned (Some uworker_input) /\
        answer (uworker_main_no_io (task_module self) uworker_input)
          (world_after pre w) = Returned None
  | _ => False
  end.

(** The same Phase Contract on the same inputs: preprocess does the same
    whether it is asked for a locator or for a value. *)
Definition same_preprocess (m : module)
    (task_argument job_type uworker_env : value) (w : W) : Prop :=
  handoff_of (answer (tworker_preprocess m task_argument job_type
                        uworker_env) w)
  = handoff_of (answer (tworker_preprocess_no_io m task_argument job_type
                          uworker_env) w).
End Answers.

Section MainAnswers.
Variables value W : Type.
Variable h : handler (ext value) W.

(** What main did as [UTask.execute] calls it: on the first component of
    the pair that preprocess returned, in the world preprocess left.
    Nothing when preprocess returned no pair. *)
Definition main_handoff (m : module)
    (task_argument job_type uworker_env : value) (w : W) : option handoff :=
  let pre := tworker_preprocess m task_argument job_type uworker_env in
  match answer h pre w with
  | Returned (Some (input_download_url, _)) =>
      Some (handoff_of (answer h (uworker_main input_download_url)
                          (world_after h pre w)))
  | _ => None
  end.

(** What main did as [UTaskLocalExecutor.execute] calls it: on the input
    that preprocess returned, in the world preprocess left. *)
Definition main_handoff_no_io (m : module)
    (task_argument job_type uworker_env : value) (w : W) : option handoff :=
  let pre := tworker_preprocess_no_io m task_argument job_type uworker_env in
  match answer h pre w with
  | Returned (Some uworker_input) =>
      Some (handoff_of (answer h (uworker_main_no_io m uworker_input)
                          (world_after h pre w)))
  | _ => None
  end.

(** The same Phase Contract on the same inputs: main does the same whether
    it is given a locator or a value. *)
Definition same_main (m : module)
    (task_argument job_type uworker_env : value) (w : W) : Prop :=
  main_handoff m task_argument job_type uworker_env w
  = main_handoff_no_io m task_argument job_type uworker_env w.

(** Whether postprocess, as [UTaskLocalExecutor.execute] calls it on the
    output of main and the input of preprocess, returns. *)
Definition postprocess_returns (m : module)
    (task_argument job_type uworker_env : value) (w : W) : bool :=
  let pre := tworker_preprocess_no_io m task_argument job_type uworker_env in
  match answer h pre w with
  | Returned (Some uworker_input) =>
      let mn := uworker_main_no_io m uworker_input in
      let w1 := world_after h pre w in
      match answer h mn w1 with
      | Returned (Some uworker_output) =>
          match answer h (tworker_postprocess_no_io m uworker_output
                            uworker_input) (world_after h mn w1) with
          | Returned _ => true
          | Raised _ => false
          end
      | _ => false
      end
  | _ => false
  end.
End MainAnswers.

(** ** Sample collaborators and tables *)

(** Helpers over strings with no world: preprocess yields a handoff iff
    [pre], main iff [mn]. *)
Definition sample_utasks (pre mn : bool) : handler (ext string) unit :=
  fun X c w =>
    match c in ext _ X return result X * unit with
    | execute_task _ _ _ => (Returned tt, tt)
    | tworker_preprocess _ a _ _ =>
        (Returned (if pre
                   then Some (("in:" ++ a)%string, ("out:" ++ a)%string)
                   else None), tt)
    | uworker_main url =>
        (Returned (if mn then Some ("done:" ++ url)%string else None), tt)
    | tworker_postprocess _ => (Returned tt, tt)
    | tworker_preprocess_no_io _ a _ _ =>
        (Returned (if pre then Some ("in:" ++ a)%string else None), tt)
    | uworker_main_no_io _ i =>
        (Returned (if mn then Some ("done:" ++ i)%string else None), tt)
    | tworker_postprocess_no_io _ _ _ => (Returned tt, tt)
    end.

(** A store that numbers its records: the locator is the position. *)
Definition list_store : Storage nat (list (module * nat)) :=
  {| materialize := fun r s => (List.length s, s ++ [r]);
     resolve := fun loc s => nth_error s loc |}.

(** A Phase Contract over numbers whose phases always yield. *)
Definition counting_contract (m : module) : PhaseContract nat :=
  {| preprocess := fun a j e => Some (a + j + e);
     main := fun i => Some (2 * i) |}.

(** The registry of the spec's scenario. *)
Definition scenario_registry : dict task :=
  dict_display
    [ ("a", new TrustedTask blame_task);
      ("b", new UTask fuzz_task);
      ("c", new UTaskLocalExecutor analyze_task) ].

(** A display that writes one name twice. *)
Definition twice_a : list (string * task) :=
  [ ("a", new TrustedTask blame_task); ("a", new UTask fuzz_task) ].

(** ** Further observations on runs *)

(** The lines a run logged, in order. *)
Fixpoint logged {E} (tr : list (event E)) : list string :=
  match tr with
  | [] => []
  | ELog line :: tr' => line :: logged tr'
  | ECall _ :: tr' => logged tr'
  end.

Section Observations.
Variable value : Type.

(** The three kinds of call: a method of the task module, a helper of
    [utasks] that works on a URL or path, and a helper whose name ends in
    [_no_io]. *)
Inductive family : Type := OnModule | WithIO | NoIO.

Definition family_of_call {X} (c : ext value X) : family :=
  match c with
  | execute_task _ _ _ => OnModule
  | tworker_preprocess _ _ _ _ | uworker_main _ | tworker_postprocess _ =>
      WithIO
  | tworker_preprocess_no_io _ _ _ _ | uworker_main_no_io _ _
  | tworker_postprocess_no_io _ _ _ => NoIO
  end.

(** The kind of call the [execute] of each class makes. *)
Definition family_of_class (c : class) : option family :=
  match c with
  | BaseTask => None
  | TrustedTask => Some OnModule
  | UTask_shadowed | UTask | PostprocessTask | UworkerMainTask => Some WithIO
  | UTaskLocalExecutor => Some NoIO
  end.

Definition in_family (f : option family) (ev : event (ext value)) : Prop :=
  match ev with
  | ECall c => Some (family_of_call c) = f
  | ELog _ => True
  end.

Definition no_io_call (ev : event (ext value)) : Prop :=
  match ev with
  | ECall c => family_of_call c <> WithIO
  | ELog _ => True
  end.

(** Preprocess before main before postprocess. *)
Definition phase_rank (p : phase) : nat :=
  match p with
  | Preprocess => 0
  | Main => 1
  | Postprocess => 2
  end.

(** Every phase at most once, in the order of the ranks. *)
Fixpoint in_order (l : list phase) : bool :=
  match l with
  | [] => true
  | p :: l' =>
      match l' with
      | [] => true
      | q :: _ => Nat.ltb (phase_rank p) (phase_rank q) && in_order l'
      end
  end.


(** The line [execute] logs when it reaches the end of its body. *)
Definition done_line (c : class) : list string :=
  match c with
  | UTask => ["Utask: done with preprocess and main."]
  | UTaskLocalExecutor => ["Utask local: done."]
  | _ => []
  end.
End Observations.

(** Helpers over strings in which main faults and the other phases
    yield. *)
Definition main_faults : handler (ext string) unit :=
  fun X c w =>
    match c in ext _ X return result X * unit with
    | uworker_main _ => (Raised (Fault "main failed"), tt)
    | uworker_main_no_io _ _ => (Raised (Fault "main failed"), tt)
    | c' => sample_utasks true true c' w
    end.

(** * Properties *)

(** ** Dicts *)

Section DictFacts.
Variable V : Type.
Implicit Types (d : dict V) (k : string) (v : V).
Implicit Types entries : list (string * V).

Lemma dict_get_none_iff k d : dict_get k d = None <-> ~ In k (dict_keys d).
Proof.
  induction d as [|[k' v'] d IH]; simpl.
  - tauto.
  - destruct (String.eqb_spec k k') as [->|Hne].
    + split; [discriminate | intros H; exfalso; apply H; now left].
    + rewrite IH. split.
      * intros H [Heq|Hin]; [now apply Hne | now apply H].
      * intros H Hin. apply H. now right.
Qed.

Lemma dict_get_some_of_key k d :
  In k (dict_keys d) -> exists v, dict_get k d = Some v.
Proof.
  intros Hin. destruct (dict_get k d) as [v|] eqn:Hget.
  - now exists v.
  - apply dict_get_none_iff in Hget. contradiction.
Qed.

Lemma dict_keys_set_absent k v d :
  ~ In k (dict_keys d) -> dict_set k v d = d ++ [(k, v)].
Proof.
  induction d as [|[k' v'] d IH]; simpl; intros Hnin.
  - reflexivity.
  - destruct (String.eqb_spec k k') as [->|Hne].
    + exfalso. apply Hnin. now left.
    + rewrite IH; [reflexivity | intros H; apply Hnin; now right].
Qed.

Lemma dict_keys_set_present k v d :
  In k (dict_keys d) -> dict_keys (dict_set k v d) = dict_keys d.
Proof.
  induction d as [|[k' v'] d IH]; simpl; intros Hin.
  - contradiction.
  - destruct (String.eqb_spec k k') as [->|Hne]; simpl.
    + reflexivity.
    + f_equal. apply IH. destruct Hin as [Heq|Hin]; [congruence | exact Hin].
Qed.

Lemma dict_set_NoDup k v d :
  NoDup (dict_keys d) -> NoDup (dict_keys (dict_set k v d)).
Proof.
  intros Hnd. destruct (in_dec string_dec k (dict_keys d)) as [Hin|Hnin].
  - now rewrite dict_keys_set_present.
  - rewrite dict_keys_set_absent by assumption.
    unfold dict_keys in *. rewrite map_app. simpl.
    apply NoDup_app; [assumption | repeat constructor; intros [] | ].
    intros x Hx [<-|[]]. contradiction.
Qed.

Lemma dict_get_set k k' v d :
  dict_get k (dict_set k' v d) =
  if String.eqb k k' then Some v else dict_get k d.
Proof.
  induction d as [|[k0 v0] d IH]; simpl.
  - reflexivity.
  - destruct (String.eqb_spec k' k0) as [->|Hne]; simpl.
    + destruct (String.eqb k k0); reflexivity.
    + rewrite IH. destruct (String.eqb_spec k k0) as [->|Hne'].
      * destruct (String.eqb_spec k0 k'); [congruence | reflexivity].
      * reflexivity.
Qed.

Lemma assign_all_NoDup entries : forall d,
  NoDup (dict_keys d) -> NoDup (dict_keys (assign_all entries d)).
Proof.
  induction entries as [|[k v] entries IH]; simpl; intros d Hnd.
  - exact Hnd.
  - apply IH. now apply dict_set_NoDup.
Qed.

Lemma dict_get_app k d1 d2 :
  dict_get k (d1 ++ d2) =
  match dict_get k d1 with Some v => Some v | None => dict_get k d2 end.
Proof.
  induction d1 as [|[k' v'] d1 IH]; simpl.
  - reflexivity.
  - destruct (String.eqb k k'); [reflexivity | exact IH].
Qed.

Lemma assign_all_get k entries : forall d,
  dict_get k (assign_all entries d) =
  match written_last k entries with
  | Some v => Some v
  | None => dict_get k d
  end.
Proof.
  unfold written_last.
  induction entries as [|[k' v'] entries IH]; simpl; intros d.
  - reflexivity.
  - rewrite IH, dict_get_app, dict_get_set. simpl.
    destruct (dict_get k (rev entries)); [reflexivity|].
    destruct (String.eqb k k'); reflexivity.
Qed.

Lemma assign_all_distinct entries : forall d,
  NoDup (dict_keys d ++ map fst entries) ->
  assign_all entries d = d ++ entries.
Proof.
  induction entries as [|[k v] entries IH]; simpl; intros d Hnd.
  - now rewrite app_nil_r.
  - assert (Hk : ~ In k (dict_keys d)).
    { intros Hin. apply NoDup_remove_2 in Hnd. apply Hnd.
      apply in_or_app. now left. }
    rewrite dict_keys_set_absent by exact Hk.
    rewrite IH.
    + now rewrite <- app_assoc.
    + unfold dict_keys in *. rewrite map_app. simpl.
      rewrite <- app_assoc. exact Hnd.
Qed.

Lemma dict_display_NoDup entries : NoDup (dict_keys (dict_display entries)).
Proof.
  apply assign_all_NoDup. constructor.
Qed.

Lemma dict_display_get k entries :
  dict_get k (dict_display entries) = written_last k entries.
Proof.
  unfold dict_display. rewrite assign_all_get. simpl.
  now destruct (written_last k entries).
Qed.

Lemma dict_display_distinct entries :
  NoDup (map fst entries) -> dict_display entries = entries.
Proof.
  intros Hnd. unfold dict_display. now rewrite assign_all_distinct.
Qed.
End DictFacts.

(** ** The table and the queries *)

Lemma class_eqb_eq c d : class_eqb c d = true <-> c = d.
Proof. destruct c, d; simpl; split; congruence. Qed.

Lemma isinstance_UTask t : isinstance t UTask = class_eqb (cls t) UTask.
Proof. destruct t as [[] m]; reflexivity. Qed.

Lemma is_multimachine_executed_bound cm n t :
  dict_get n cm = Some t ->
  is_multimachine_executed cm n = Returned (class_eqb (cls t) UTask).
Proof.
  intros Hget. unfold is_multimachine_executed, subscript.
  rewrite Hget. simpl. now rewrite isinstance_UTask.
Qed.

Lemma is_multimachine_executed_unbound cm n :
  ~ In n (dict_keys cm) -> is_multimachine_executed cm n = Raised (KeyError n).
Proof.
  intros Hnin. apply dict_get_none_iff in Hnin.
  unfold is_multimachine_executed, subscript. now rewrite Hnin.
Qed.

Lemma is_multimachine_executed_key cm n :
  In n (dict_keys cm) ->
  is_multimachine_executed cm n = Returned (bound_to cm UTask n).
Proof.
  intros Hin. destruct (dict_get_some_of_key _ _ Hin) as [t Hget].
  unfold bound_to. rewrite Hget. now apply is_multimachine_executed_bound.
Qed.

Lemma multimachine_among_filter cm names :
  incl names (dict_keys cm) ->
  multimachine_among cm names = Returned (filter (bound_to cm UTask) names).
Proof.
  induction names as [|n names IH]; simpl; intros Hincl.
  - reflexivity.
  - rewrite is_multimachine_executed_key by (apply Hincl; now left).
    simpl. rewrite IH by (intros x Hx; apply Hincl; now right).
    reflexivity.
Qed.

Lemma get_multimachine_tasks_filter cm :
  get_multimachine_tasks cm
  = Returned (filter (bound_to cm UTask) (dict_keys cm)).
Proof. apply multimachine_among_filter, incl_refl. Qed.

(** C3: for a name [n] that the table binds to a task object [t],
    [is_multimachine_executed] returns a boolean, which is true if and only
    if [t] is a [UTask]; it is false when [t] is a [TrustedTask], a
    [UTaskLocalExecutor], a [PostprocessTask] or a [UworkerMainTask]. *)
Theorem is_multimachine_executed_iff_UTask (cm : dict task) (n : string)
    (t : task) :
  dict_get n cm = Some t ->
  exists b,
    is_multimachine_executed cm n = Returned b /\
    (b = true <-> cls t = UTask) /\
    (In (cls t)
        [TrustedTask; UTaskLocalExecutor; PostprocessTask; UworkerMainTask] ->
     b = false).
Proof.
  intros Hget. exists (class_eqb (cls t) UTask). split; [|split].
  - now apply is_multimachine_executed_bound.
  - apply class_eqb_eq.
  - simpl. intros [<-|[<-|[<-|[<-|[]]]]]; reflexivity.
Qed.

(** In the scenario table, "b" is bound to a [UTask]. *)
Lemma is_multimachine_executed_iff_UTask_witness :
  exists b,
    is_multimachine_executed scenario_registry "b" = Returned b /\
    (b = true <-> UTask = UTask) /\
    (In UTask
        [TrustedTask; UTaskLocalExecutor; PostprocessTask; UworkerMainTask] ->
     b = false).
Proof.
  apply (@is_multimachine_executed_iff_UTask scenario_registry "b"
           (new UTask fuzz_task)).
  reflexivity.
Defined.

(** C8: [get_multimachine_tasks] returns, without raising, the keys of the
    table for which [is_multimachine_executed] returns true, each as often
    and in the order the table holds it; it depends on the table alone, so
    calling it twice gives the same list twice.  On the table
    [{"a": Trusted, "b": UTask, "c": UTaskLocalExecutor}] it returns
    [["b"]]. *)
Theorem get_multimachine_tasks_exact (cm : dict task) :
  (exists l,
     get_multimachine_tasks cm = Returned l /\
     l = filter (bound_to cm UTask) (dict_keys cm) /\
     (forall n, In n l <->
        In n (dict_keys cm) /\ is_multimachine_executed cm n = Returned true) /\
     result_bind (get_multimachine_tasks cm) (fun l1 =>
     result_bind (get_multimachine_tasks cm) (fun l2 =>
     Returned (l1, l2))) = Returned (l, l)) /\
  (forall ma mb mc,
     get_multimachine_tasks
       (dict_display [ ("a", new TrustedTask ma); ("b", new UTask mb);
                       ("c", new UTaskLocalExecutor mc) ])
     = Returned ["b"]).
Proof.
  split.
  - exists (filter (bound_to cm UTask) (dict_keys cm)).
    rewrite get_multimachine_tasks_filter.
    split; [reflexivity|]. split; [reflexivity|]. split; [|reflexivity].
    intros n. rewrite filter_In. split; intros [Hin Hq]; (split; [exact Hin|]).
    + rewrite is_multimachine_executed_key by exact Hin. now rewrite Hq.
    + rewrite is_multimachine_executed_key in Hq by exact Hin. congruence.
  - reflexivity.
Qed.

Lemma COMMAND_MAP_display_run E W (h : handler E W) (w : W) :
  run h COMMAND_MAP_display w
  = Outcome (Returned COMMAND_MAP) w
      (repeat (ELog "Using memory for utasks.") 7).
Proof. reflexivity. Qed.

(** C10: loading the file calls [utask_factory] with [in_memory] at its
    default and so logs "Using memory for utasks." seven times and never
    builds a [UTask]; the seven multi-phase entries of [COMMAND_MAP] are
    [UTaskLocalExecutor] objects; [is_multimachine_executed] returns false
    for every name of the table and [get_multimachine_tasks] returns the
    empty list. *)
Theorem shipped_table_has_no_multimachine_task :
  in_memory_default = true /\
  (forall E W (h : handler E W) (w : W),
     run h COMMAND_MAP_display w
     = Outcome (Returned COMMAND_MAP) w
         (repeat (ELog "Using memory for utasks.") 7)) /\
  COMMAND_MAP =
    [ ("analyze", new UTaskLocalExecutor analyze_task);
      ("blame", new TrustedTask blame_task);
      ("corpus_pruning", new UTaskLocalExecutor corpus_pruning_task);
      ("fuzz", new UTaskLocalExecutor fuzz_task);
      ("impact", new TrustedTask impact_task);
      ("minimize", new UTaskLocalExecutor minimize_task);
      ("progression", new UTaskLocalExecutor progression_task);
      ("regression", new UTaskLocalExecutor regression_task);
      ("symbolize", new TrustedTask symbolize_task);
      ("unpack", new TrustedTask unpack_task);
      ("uworker_postprocess", new PostprocessTask none_str);
      ("upload_reports", new TrustedTask upload_reports_task);
      ("uworker_main", new UworkerMainTask none_str);
      ("variant", new UTaskLocalExecutor variant_task) ] /\
  (forall E m, utask_factory (E:=E) m in_memory_default
               = Log "Using memory for utasks."
                   (Ret (new UTaskLocalExecutor m))) /\
  Forall (fun n => is_multimachine_executed COMMAND_MAP n = Returned false)
    (dict_keys COMMAND_MAP) /\
  get_multimachine_tasks COMMAND_MAP = Returned [].
Proof.
  split; [reflexivity|]. split; [intros; apply COMMAND_MAP_display_run|].
  split; [reflexivity|]. split; [reflexivity|]. split.
  - repeat constructor.
  - reflexivity.
Qed.

(** C7, as stated, fails: a display that writes the name "a" twice is
    evaluated to a table without any error, and in that table the entry
    written second has taken the place of the one written first. *)
Lemma duplicate_name_replaces_silently :
  ~ NoDup (map fst twice_a) /\
  dict_display twice_a = [("a", new UTask fuzz_task)] /\
  (forall E W (h : handler E W) (w : W),
     res (run h (Ret (dict_display twice_a)) w)
     = Returned [("a", new UTask fuzz_task)]) /\
  dict_get "a" (dict_display twice_a) <> Some (new TrustedTask blame_task).
Proof.
  split; [|split; [reflexivity|split; [reflexivity|discriminate]]].
  intros Hnd. inversion Hnd as [|x l Hnin _]. apply Hnin. now left.
Qed.

(** C7, amended: the table is a dict display, which detects no duplicate:
    every name of the resulting table is bound once, to the strategy written
    last under that name.  The shipped display writes fourteen entries
    ([COMMAND_MAP_written], what evaluating the entries of the display
    returns), under fourteen names that are pairwise distinct, so none
    replaces another: [COMMAND_MAP] holds exactly the fourteen entries as
    written, in the order written. *)
Theorem table_binds_each_name_once :
  (forall entries : list (string * task),
     NoDup (dict_keys (dict_display entries)) /\
     forall n, dict_get n (dict_display entries) = written_last n entries) /\
  (forall E W (h : handler E W) (w : W),
     run h COMMAND_MAP_entries w
     = Outcome (Returned COMMAND_MAP_written) w
         (repeat (ELog "Using memory for utasks.") 7)) /\
  List.length COMMAND_MAP_written = 14 /\
  map fst COMMAND_MAP_written =
    [ "analyze"; "blame"; "corpus_pruning"; "fuzz"; "impact"; "minimize";
      "progression"; "regression"; "symbolize"; "unpack";
      "uworker_postprocess"; "upload_reports"; "uworker_main"; "variant" ] /\
  NoDup (map fst COMMAND_MAP_written) /\
  COMMAND_MAP = dict_display COMMAND_MAP_written /\
  COMMAND_MAP = COMMAND_MAP_written /\
  NoDup (dict_keys COMMAND_MAP) /\
  dict_keys COMMAND_MAP =
    [ "analyze"; "blame"; "corpus_pruning"; "fuzz"; "impact"; "minimize";
      "progression"; "regression"; "symbolize"; "unpack";
      "uworker_postprocess"; "upload_reports"; "uworker_main"; "variant" ].
Proof.
  assert (Hwritten : NoDup (map fst COMMAND_MAP_written)).
  { unfold COMMAND_MAP_written. simpl.
    repeat (constructor; [simpl; intuition discriminate|]). constructor. }
  split; [|split; [|split; [|split; [|split; [|split; [|split; [|split]]]]]]].
  - intros entries. split.
    + apply dict_display_NoDup.
    + intros n. apply dict_display_get.
  - reflexivity.
  - reflexivity.
  - reflexivity.
  - exact Hwritten.
  - reflexivity.
  - change COMMAND_MAP with (dict_display COMMAND_MAP_written).
    apply dict_display_distinct, Hwritten.
  - exact (dict_display_NoDup COMMAND_MAP_written).
  - reflexivity.
Qed.

(** C6: for a name that the table does not hold, [dispatch] raises
    [UnknownTaskError] before anything is called or logged, so no signal is
    returned; the lookup of this file, [COMMAND_MAP[task_name]] in
    [is_multimachine_executed], raises [KeyError] for such a name. *)
Theorem dispatch_unregistered_fails (value W : Type)
    (h : handler (ext value) W) (w : W) (cm : dict task) (n : string)
    (task_argument job_type uworker_env : value) :
  ~ In n (dict_keys cm) ->
  let o := run h (dispatch cm n task_argument job_type uworker_env) w in
  o = Outcome (Raised (UnknownTaskError n)) w [] /\
  signal o = None /\
  is_multimachine_executed cm n = Raised (KeyError n).
Proof.
  intros Hnin o. subst o. unfold dispatch.
  pose proof Hnin as Hget. apply dict_get_none_iff in Hget. rewrite Hget.
  split; [reflexivity|]. split; [reflexivity|].
  now apply is_multimachine_executed_unbound.
Qed.

(** [COMMAND_MAP] holds no task named "frobnicate". *)
Lemma dispatch_unregistered_fails_witness :
  ~ In "frobnicate" (dict_keys COMMAND_MAP) /\
  let o := run (sample_utasks true true)
             (dispatch COMMAND_MAP "frobnicate" "argument" "job" "env") tt in
  o = Outcome (Raised (UnknownTaskError "frobnicate")) tt [] /\
  signal o = None /\
  is_multimachine_executed COMMAND_MAP "frobnicate"
  = Raised (KeyError "frobnicate").
Proof.
  assert (Hnin : ~ In "frobnicate" (dict_keys COMMAND_MAP)).
  { apply dict_get_none_iff. reflexivity. }
  split; [exact Hnin|].
  apply (@dispatch_unregistered_fails string unit (sample_utasks true true) tt
           COMMAND_MAP "frobnicate" "argument" "job" "env" Hnin).
Defined.

(** ** The strategies *)

Section Strategies.
Variables value W : Type.
Variable h : handler (ext value) W.
Implicit Types (w : W) (m : module) (self : task).
Implicit Types task_argument job_type uworker_env : value.

Lemma answer_eq X (c : ext value X) w r :
  answer h c w = r -> h c w = (r, world_after h c w).
Proof. unfold answer, world_after. intros <-. now destruct (h c w). Qed.

(** One step of a run, when the answer to the call is known. *)
Ltac by_answer H := simpl; rewrite (answer_eq _ _ H); simpl.

Lemma UTask_run_absent m task_argument job_type uworker_env w :
  let pre := tworker_preprocess m task_argument job_type uworker_env in
  answer h pre w = Returned None ->
  run h (execute (new UTask m) task_argument job_type uworker_env) w
  = Outcome (Returned BareReturn) (world_after h pre w) [ECall pre].
Proof.
  intros pre Hpre. subst pre. unfold execute, UTask_execute.
  now by_answer Hpre.
Qed.

Lemma local_run_absent m task_argument job_type uworker_env w :
  let pre := tworker_preprocess_no_io m task_argument job_type uworker_env in
  answer h pre w = Returned None ->
  run h (execute (new UTaskLocalExecutor m) task_argument job_type
           uworker_env) w
  = Outcome (Returned BareReturn) (world_after h pre w) [ECall pre].
Proof.
  intros pre Hpre. subst pre. unfold execute, UTaskLocalExecutor_execute.
  now by_answer Hpre.
Qed.

(** C4: under [UTask] and under [UTaskLocalExecutor], if preprocess
    returns [None], [execute] takes the bare [return] (Skipped) and the
    call to preprocess is the only thing that happened: neither main nor
    postprocess is invoked. *)
Theorem preprocess_absent_skips self task_argument job_type uworker_env w :
  preprocess_absent h self task_argument job_type uworker_env w ->
  let o := run h (execute self task_argument job_type uworker_env) w in
  res o = Returned BareReturn /\
  signal o = Some Skipped /\
  phases (trace o) = [Preprocess] /\
  ~ In Main (phases (trace o)) /\
  ~ In Postprocess (phases (trace o)) /\
  List.length (trace o) = 1.
Proof.
  intros Hpre o. subst o. destruct self as [c m].
  unfold preprocess_absent in Hpre. simpl in Hpre.
  destruct c; try contradiction.
  - rewrite UTask_run_absent by exact Hpre. simpl.
    repeat split; intros [H|[]]; discriminate.
  - rewrite local_run_absent by exact Hpre. simpl.
    repeat split; intros [H|[]]; discriminate.
Qed.

(** C5, amended: if preprocess returns a handoff and main, called on it,
    returns [None], then under both strategies the phases invoked are
    preprocess and main, never postprocess; [UTaskLocalExecutor.execute]
    takes the bare [return] (Skipped), while [UTask.execute], which does
    not look at what main returns, runs to its end (Completed). *)
Theorem main_absent_no_postprocess self task_argument job_type uworker_env
    w :
  main_absent h self task_argument job_type uworker_env w ->
  let o := run h (execute self task_argument job_type uworker_env) w in
  phases (trace o) = [Preprocess; Main] /\
  ~ In Postprocess (phases (trace o)) /\
  signal o = Some (match cls self with
                   | UTask => Completed
                   | _ => Skipped
                   end).
Proof.
  intros Habs o. subst o. destruct self as [c m].
  unfold main_absent in Habs. simpl in Habs.
  assert (Hno : ~ In Postprocess [Preprocess; Main]).
  { intros [H|[H|[]]]; discriminate. }
  destruct c; try contradiction.
  - destruct Habs as (url & other & Hpre & Hmain).
    unfold execute, UTask_execute. by_answer Hpre. by_answer Hmain.
    repeat split. exact Hno.
  - destruct Habs as (inp & Hpre & Hmain).
    unfold execute, UTaskLocalExecutor_execute. by_answer Hpre.
    by_answer Hmain. repeat split. exact Hno.
Qed.

Lemma UTask_phases m task_argument job_type uworker_env w :
  let pre := tworker_preprocess m task_argument job_type uworker_env in
  phases (trace (run h (execute (new UTask m) task_argument job_type
                          uworker_env) w))
  = match answer h pre w with
    | Returned (Some _) => [Preprocess; Main]
    | _ => [Preprocess]
    end.
Proof.
  unfold answer, execute, UTask_execute. simpl.
  destruct (h (tworker_preprocess m task_argument job_type uworker_env) w)
    as [[[[url other]|]|ex] w1]; simpl; try reflexivity.
  destruct (h (uworker_main url) w1) as [[r|ex] w2]; reflexivity.
Qed.

Lemma local_phases m task_argument job_type uworker_env w :
  let pre := tworker_preprocess_no_io m task_argument job_type uworker_env in
  let l := phases (trace (run h (execute (new UTaskLocalExecutor m)
                                   task_argument job_type uworker_env) w)) in
  match answer h pre w with
  | Returned (Some _) =>
      l = [Preprocess; Main] \/ l = [Preprocess; Main; Postprocess]
  | _ => l = [Preprocess]
  end.
Proof.
  unfold answer, execute, UTaskLocalExecutor_execute. simpl.
  destruct (h (tworker_preprocess_no_io m task_argument job_type
                 uworker_env) w) as [[[inp|]|ex] w1]; simpl;
    try reflexivity.
  destruct (h (uworker_main_no_io m inp) w1) as [[[out|]|ex] w2]; simpl;
    try (left; reflexivity).
  right.
  destruct (h (tworker_postprocess_no_io m out inp) w2) as [[[]|ex] w3];
    reflexivity.
Qed.

(** C1, amended: on the same Phase Contract and inputs (preprocess and
    main each yield, yield nothing or fault alike under both strategies)
    the two strategies invoke the same phases up to and including main;
    [UTaskLocalExecutor.execute] then invokes postprocess exactly when main
    has yielded, and [UTask.execute] never invokes postprocess.  The final
    Signal is the same (Skipped when preprocess yields nothing, Completed
    when main yields and postprocess returns, none when preprocess or main
    faults) except when main yields nothing, where [UTask.execute] is
    Completed and [UTaskLocalExecutor.execute] Skipped, and when postprocess
    faults, where [UTask.execute], which does not run it, is Completed and
    [UTaskLocalExecutor.execute] raises. *)
Theorem UTask_and_local_agree_up_to_postprocess m task_argument job_type
    uworker_env w :
  same_preprocess h m task_argument job_type uworker_env w ->
  same_main h m task_argument job_type uworker_env w ->
  let d := run h (execute (new UTask m) task_argument job_type
                    uworker_env) w in
  let l := run h (execute (new UTaskLocalExecutor m) task_argument job_type
                    uworker_env) w in
  let P := handoff_of (answer h (tworker_preprocess m task_argument job_type
                                   uworker_env) w) in
  let M := main_handoff h m task_argument job_type uworker_env w in
  phases (trace d) = match M with
                     | Some _ => [Preprocess; Main]
                     | None => [Preprocess]
                     end /\
  phases (trace l) = phases (trace d) ++ match M with
                                         | Some Artifact => [Postprocess]
                                         | _ => []
                                         end /\
  ~ In Postprocess (phases (trace d)) /\
  match P, M with
  | Absent, None => signal d = Some Skipped /\ signal l = Some Skipped
  | Faulted, None => signal d = None /\ signal l = None
  | Artifact, Some Faulted => signal d = None /\ signal l = None
  | Artifact, Some Absent =>
      signal d = Some Completed /\ signal l = Some Skipped
  | Artifact, Some Artifact =>
      signal d = Some Completed /\
      signal l = if postprocess_returns h m task_argument job_type
                      uworker_env w
                 then Some Completed else None
  | _, _ => False
  end /\
  ((exists x, res l = Returned x) -> M <> Some Absent -> signal l = signal d).
Proof.
  unfold same_preprocess, same_main, main_handoff, main_handoff_no_io,
    postprocess_returns, answer, world_after, execute, UTask_execute,
    UTaskLocalExecutor_execute.
  simpl.
  destruct (h (tworker_preprocess m task_argument job_type uworker_env) w)
    as [[[[url other]|]|ex] w1];
    destruct (h (tworker_preprocess_no_io m task_argument job_type
                   uworker_env) w) as [[[inp|]|ex'] w1'];
    simpl; intros Hpre Hmain; try discriminate Hpre.
  - destruct (h (uworker_main url) w1) as [[[r|]|exm] w2];
      destruct (h (uworker_main_no_io m inp) w1') as [[[out|]|exm'] w2'];
      simpl in Hmain |- *; try discriminate Hmain.
    + destruct (h (tworker_postprocess_no_io m out inp) w2')
        as [[[]|exp] w3]; simpl;
        (split; [reflexivity|]); (split; [reflexivity|]);
        (split; [intros [H|[H|[]]]; discriminate|]);
        (split; [split; reflexivity|]).
      * reflexivity.
      * intros [x Hx]. discriminate Hx.
    + repeat split; try (intros [H|[H|[]]]; discriminate).
      intros _ Hne. now contradiction Hne.
    + repeat split; try (intros [H|[H|[]]]; discriminate).
  - repeat split; try (intros [H|[]]; discriminate).
  - repeat split; try (intros [H|[]]; discriminate).
Qed.
End Strategies.

(** Both strategies on helpers whose preprocess returns [None]. *)
Lemma preprocess_absent_skips_witness :
  (let o := run (sample_utasks false true)
              (execute (new UTask fuzz_task) "argument" "job" "env") tt in
   res o = Returned BareReturn /\
   signal o = Some Skipped /\
   phases (trace o) = [Preprocess] /\
   ~ In Main (phases (trace o)) /\
   ~ In Postprocess (phases (trace o)) /\
   List.length (trace o) = 1) /\
  (let o := run (sample_utasks false true)
              (execute (new UTaskLocalExecutor fuzz_task) "argument" "job"
                 "env") tt in
   res o = Returned BareReturn /\
   signal o = Some Skipped /\
   phases (trace o) = [Preprocess] /\
   ~ In Main (phases (trace o)) /\
   ~ In Postprocess (phases (trace o)) /\
   List.length (trace o) = 1).
Proof.
  split.
  - apply (@preprocess_absent_skips string unit (sample_utasks false true)
             (new UTask fuzz_task) "argument" "job" "env" tt).
    reflexivity.
  - apply (@preprocess_absent_skips string unit (sample_utasks false true)
             (new UTaskLocalExecutor fuzz_task) "argument" "job" "env" tt).
    reflexivity.
Defined.

(** C5, as stated, fails for [UTask]: preprocess returns a handoff, main
    returns [None], and [UTask.execute] still runs to the end of its body,
    log line included, which is Completed and not Skipped; the run is the
    one it makes when main yields a handoff. *)
Lemma UTask_completes_when_main_absent :
  let h := sample_utasks true false in
  let o := run h (execute (new UTask fuzz_task) "argument" "job" "env") tt in
  main_absent h (new UTask fuzz_task) "argument" "job" "env" tt /\
  trace o =
    [ ECall (tworker_preprocess fuzz_task "argument" "job" "env");
      ECall (uworker_main "in:argument");
      ELog "Utask: done with preprocess and main." ] /\
  res o = Returned EndOfBody /\
  signal o = Some Completed /\
  signal o <> Some Skipped /\
  o = run (sample_utasks true true)
        (execute (new UTask fuzz_task) "argument" "job" "env") tt.
Proof.
  split; [|repeat split; discriminate].
  exists "in:argument", "out:argument". split; reflexivity.
Qed.

(** [UTaskLocalExecutor] on helpers whose main returns [None]. *)
Lemma main_absent_no_postprocess_witness :
  let h := sample_utasks true false in
  let o := run h (execute (new UTaskLocalExecutor fuzz_task) "argument" "job"
                    "env") tt in
  phases (trace o) = [Preprocess; Main] /\
  ~ In Postprocess (phases (trace o)) /\
  signal o = Some Skipped.
Proof.
  apply (@main_absent_no_postprocess string unit (sample_utasks true false)
           (new UTaskLocalExecutor fuzz_task) "argument" "job" "env" tt).
  exists "in:argument". split; reflexivity.
Defined.

(** C1, as stated, fails: on helpers whose preprocess and main both yield a
    handoff, [UTask.execute] goes through preprocess and main while
    [UTaskLocalExecutor.execute] goes through preprocess, main and
    postprocess; and when main yields nothing the first is Completed and the
    second Skipped. *)
Lemma UTask_and_local_differ :
  let d h := run h (execute (new UTask fuzz_task) "argument" "job" "env") tt in
  let l h := run h (execute (new UTaskLocalExecutor fuzz_task) "argument" "job"
                      "env") tt in
  same_preprocess (sample_utasks true true) fuzz_task "argument" "job" "env"
    tt /\
  phases (trace (d (sample_utasks true true))) = [Preprocess; Main] /\
  phases (trace (l (sample_utasks true true)))
  = [Preprocess; Main; Postprocess] /\
  phases (trace (d (sample_utasks true true)))
  <> phases (trace (l (sample_utasks true true))) /\
  same_preprocess (sample_utasks true false) fuzz_task "argument" "job" "env"
    tt /\
  signal (d (sample_utasks true false)) = Some Completed /\
  signal (l (sample_utasks true false)) = Some Skipped /\
  signal (d (sample_utasks true false))
  <> signal (l (sample_utasks true false)).
Proof.
  repeat split; discriminate.
Qed.

(** Both strategies on helpers whose phases all yield. *)
Lemma UTask_and_local_agree_up_to_postprocess_witness :
  let h := sample_utasks true true in
  let d := run h (execute (new UTask fuzz_task) "argument" "job" "env") tt in
  let l := run h (execute (new UTaskLocalExecutor fuzz_task) "argument" "job"
                    "env") tt in
  phases (trace d) = [Preprocess; Main] /\
  phases (trace l) = phases (trace d) ++ [Postprocess] /\
  ~ In Postprocess (phases (trace d)) /\
  (signal d = Some Completed /\ signal l = Some Completed) /\
  ((exists x, res l = Returned x) ->
   Some Artifact <> Some Absent -> signal l = signal d).
Proof.
  apply (@UTask_and_local_agree_up_to_postprocess string unit
           (sample_utasks true true) fuzz_task "argument" "job" "env" tt).
  - reflexivity.
  - reflexivity.
Defined.

(** C9: [TrustedTask.execute] makes one call, [execute_task] of its module
    with the task argument and the job type, whatever [uworker_env] is and
    whatever the collaborators do; no helper of [utasks], through which
    every handoff goes, is called, and nothing is logged. *)
Theorem TrustedTask_execute_calls_execute_task_once (value W : Type)
    (h : handler (ext value) W) (w : W) (m : module)
    (task_argument job_type uworker_env : value) :
  let o := run h (execute (new TrustedTask m) task_argument job_type
                    uworker_env) w in
  trace o = [ECall (execute_task m task_argument job_type)] /\
  phases (trace o) = [] /\
  (forall uworker_env',
     run h (execute (new TrustedTask m) task_argument job_type uworker_env') w
     = o) /\
  res o = match answer h (execute_task m task_argument job_type) w with
          | Returned _ => Returned EndOfBody
          | Raised ex => Raised ex
          end.
Proof.
  unfold execute, TrustedTask_execute, answer. simpl.
  destruct (h _ (execute_task m task_argument job_type) w) as [[[]|ex] w1];
    simpl; repeat split.
Qed.

(** ** [UTask.execute] over the modelled helpers *)

Lemma list_store_round_trip : round_trip list_store.
Proof.
  intros r s. simpl. rewrite nth_error_app2 by lia.
  now rewrite Nat.sub_diag.
Qed.

(** C2, as stated, fails: preprocess yields 6, main on 6 yields 12,
    [UTask.execute] runs to its end (Completed) and the store has
    materialized twice, but it has resolved once, not twice: postprocess is
    not invoked by [UTask.execute], so nothing resolves the second
    locator. *)
Lemma UTask_execute_resolves_once :
  let o := run (utasks_model counting_contract list_store)
             (execute (new UTask fuzz_task) 1 2 3) ([], []) in
  preprocess (counting_contract fuzz_task) 1 2 3 = Some 6 /\
  main (counting_contract fuzz_task) 6 = Some 12 /\
  signal o = Some Completed /\
  snd (world o) =
    [ c_preprocess fuzz_task 1 2 3; c_materialize fuzz_task 6; c_resolve 0;
      c_main fuzz_task 6; c_materialize fuzz_task 12 ] /\
  times is_materialize (snd (world o)) = 2 /\
  times is_resolve (snd (world o)) = 1 /\
  times is_resolve (snd (world o)) <> 2 /\
  times is_postprocess (snd (world o)) = 0.
Proof.
  repeat split. discriminate.
Qed.

(** C2, amended: when preprocess yields an artifact A and main on A yields
    an artifact B, [UTask.execute] returns Completed after preprocess,
    materialize A, resolve, main, materialize B: materialize is invoked
    twice and resolve once, and postprocess is not invoked.  The second
    resolve, and postprocess on B, happen when the postprocess-only task is
    executed on the locator of B; both operations of the store have then
    been invoked twice. *)
Theorem UTask_execute_two_materialize_one_resolve (value S : Type)
    (contract : module -> PhaseContract value) (st : Storage value S) (s : S)
    (m : module) (task_argument job_type uworker_env A B : value) :
  round_trip st ->
  preprocess (contract m) task_argument job_type uworker_env = Some A ->
  main (contract m) A = Some B ->
  let model := utasks_model contract st in
  let o := run model (execute (new UTask m) task_argument job_type
                        uworker_env) (s, []) in
  let locA := fst (materialize st (m, A) s) in
  let locB := fst (materialize st (m, B) (snd (materialize st (m, A) s))) in
  signal o = Some Completed /\
  snd (world o) =
    [ c_preprocess m task_argument job_type uworker_env; c_materialize m A;
      c_resolve locA; c_main m A; c_materialize m B ] /\
  times is_materialize (snd (world o)) = 2 /\
  times is_resolve (snd (world o)) = 1 /\
  times is_postprocess (snd (world o)) = 0 /\
  forall job_type' uworker_env',
    let o' := run model (execute PostprocessTask_default locB job_type'
                           uworker_env') (world o) in
    signal o' = Some Completed /\
    snd (world o') = snd (world o) ++ [c_resolve locB; c_postprocess m B] /\
    times is_materialize (snd (world o')) = 2 /\
    times is_resolve (snd (world o')) = 2.
Proof.
  intros Hrt Hpre Hmain model o locA locB.
  assert (Ho : o = Outcome (Returned EndOfBody)
                 (snd (materialize st (m, B) (snd (materialize st (m, A) s))),
                  [ c_preprocess m task_argument job_type uworker_env;
                    c_materialize m A; c_resolve locA; c_main m A;
                    c_materialize m B ])
                 [ ECall (tworker_preprocess m task_argument job_type
                            uworker_env);
                   ECall (uworker_main locA);
                   ELog "Utask: done with preprocess and main." ]).
  { subst o model locA. unfold execute, UTask_execute. simpl.
    rewrite Hpre. simpl. rewrite Hrt. simpl. rewrite Hmain. reflexivity. }
  rewrite Ho. simpl.
  split; [reflexivity|]. split; [reflexivity|]. split; [reflexivity|].
  split; [reflexivity|]. split; [reflexivity|].
  intros job_type' uworker_env'. subst model locB.
  unfold execute, PostprocessTask_execute. simpl. rewrite Hrt. simpl.
  repeat split.
Qed.

(** The counting contract over the numbering store. *)
Lemma UTask_execute_two_materialize_one_resolve_witness :
  let model := utasks_model counting_contract list_store in
  let o := run model (execute (new UTask fuzz_task) 1 2 3) ([], []) in
  signal o = Some Completed /\
  snd (world o) =
    [ c_preprocess fuzz_task 1 2 3; c_materialize fuzz_task 6; c_resolve 0;
      c_main fuzz_task 6; c_materialize fuzz_task 12 ] /\
  times is_materialize (snd (world o)) = 2 /\
  times is_resolve (snd (world o)) = 1 /\
  times is_postprocess (snd (world o)) = 0 /\
  forall job_type' uworker_env',
    let o' := run model (execute PostprocessTask_default 1 job_type'
                           uworker_env') (world o) in
    signal o' = Some Completed /\
    snd (world o') =
      snd (world o) ++ [c_resolve 1; c_postprocess fuzz_task 12] /\
    times is_materialize (snd (world o')) = 2 /\
    times is_resolve (snd (world o')) = 2.
Proof.
  apply (@UTask_execute_two_materialize_one_resolve nat (list (module * nat))
           counting_contract list_store [] fuzz_task 1 2 3 6 12).
  - exact list_store_round_trip.
  - reflexivity.
  - reflexivity.
Defined.

(** ** Further properties of the strategies *)

Section MoreStrategies.
Variables value W : Type.
Variable h : handler (ext value) W.
Implicit Types (w : W) (m : module) (self : task).
Implicit Types task_argument job_type uworker_env : value.

(** Case analysis on what the collaborators answer along a run. *)
Ltac split_answers :=
  repeat (simpl;
          match goal with
          | |- context [match h ?c ?w with _ => _ end] =>
              let E := fresh "E" in
              destruct (h c w) as [[?|?] ?] eqn:E
          | |- context [match ?x with Some _ => _ | None => _ end] =>
              destruct x
          | |- context [let (_, _) := ?x in _] => destruct x
          end).

Ltac each_class self :=
  destruct self as [[] ?];
  unfold execute, BaseTask_execute, TrustedTask_execute,
    UTask_shadowed_execute, UTask_execute, UTaskLocalExecutor_execute,
    PostprocessTask_execute, UworkerMainTask_execute.

(** X5: whatever the class and whatever the collaborators do, [execute]
    goes through each phase at most once and in the order preprocess, main,
    postprocess (nothing is retried), and a run has at most four events. *)
Theorem execute_phases_in_order self task_argument job_type uworker_env w :
  let o := run h (execute self task_argument job_type uworker_env) w in
  in_order (phases (trace o)) = true /\ List.length (trace o) <= 4.
Proof.
  each_class self; split_answers; split; (reflexivity || (simpl; lia)).
Qed.

(** X6: every call [execute] makes is of the kind of its class: a
    [TrustedTask] calls the task module only, a [UTaskLocalExecutor] the
    [_no_io] helpers only, the other task classes the URL helpers only, and
    [BaseTask] calls nothing. *)
Theorem execute_calls_one_family self task_argument job_type uworker_env w :
  Forall (in_family (family_of_class (cls self)))
    (trace (run h (execute self task_argument job_type uworker_env) w)).
Proof.
  each_class self; split_answers; repeat constructor.
Qed.

(** X9: the line that says the task is done is logged exactly when
    [execute] reaches the end of its body, by [UTask] and
    [UTaskLocalExecutor] alone; a run that returns early or faults logs
    nothing. *)
Theorem done_line_logged_at_end_of_body self task_argument job_type
    uworker_env w :
  let o := run h (execute self task_argument job_type uworker_env) w in
  logged (trace o) = match res o with
                     | Returned EndOfBody => done_line (cls self)
                     | _ => []
                     end.
Proof.
  each_class self; split_answers; reflexivity.
Qed.


(** X8: when [execute] of a task class raises, the exception is the one a
    collaborator raised at the last call of the run, the world is the one
    that call left, and nothing was logged: a fault goes to the caller as
    it is, and nothing runs after it. *)
Theorem execute_fault_is_last_call self task_argument job_type uworker_env w
    ex :
  let o := run h (execute self task_argument job_type uworker_env) w in
  res o = Raised ex ->
  cls self <> BaseTask ->
  exists X (c : ext value X) tr w0,
    trace o = tr ++ [ECall c] /\
    h c w0 = (Raised ex, world o) /\
    logged (trace o) = [].
Proof.
  each_class self; split_answers; intros Hres Hc; simpl in Hc;
    try congruence; try discriminate Hres;
    injection Hres as <-;
    first [ eexists _, _, [], _; simpl;
            split; [reflexivity | split; [eassumption | reflexivity]]
          | eexists _, _, [_], _; simpl;
            split; [reflexivity | split; [eassumption | reflexivity]]
          | eexists _, _, [_; _], _; simpl;
            split; [reflexivity | split; [eassumption | reflexivity]] ].
Qed.

(** X2: the part tasks [PostprocessTask] and [UworkerMainTask] make one
    call, [tworker_postprocess] or [uworker_main], on the task argument
    taken as a path; module, job type and environment play no part, and
    the result is that of the call. *)
Theorem part_tasks_make_one_call m task_argument job_type uworker_env w :
  run h (execute (new PostprocessTask m) task_argument job_type uworker_env) w
  = Outcome
      (match answer h (tworker_postprocess task_argument) w with
       | Returned _ => Returned EndOfBody
       | Raised ex => Raised ex
       end)
      (world_after h (tworker_postprocess task_argument) w)
      [ECall (tworker_postprocess task_argument)] /\
  run h (execute (new UworkerMainTask m) task_argument job_type uworker_env) w
  = Outcome
      (match answer h (uworker_main task_argument) w with
       | Returned _ => Returned EndOfBody
       | Raised ex => Raised ex
       end)
      (world_after h (uworker_main task_argument) w)
      [ECall (uworker_main task_argument)].
Proof.
  unfold execute, PostprocessTask_execute, UworkerMainTask_execute, answer,
    world_after.
  split; split_answers; reflexivity.
Qed.

(** X3: once preprocess has returned a pair, [UTask.execute] goes on as
    the task [UworkerMainTask] would on the first component of the pair,
    whatever its module, job type and environment: same call, same world,
    same result, and the done line on top when main returns.  The second
    component of the pair is not used. *)
Theorem UTask_execute_continues_as_main_task m m' task_argument job_type
    uworker_env job_type' uworker_env' w input_download_url other w1 :
  h (tworker_preprocess m task_argument job_type uworker_env) w
  = (Returned (Some (input_download_url, other)), w1) ->
  let o := run h (execute (new UTask m) task_argument job_type uworker_env) w in
  let o' := run h (execute (new UworkerMainTask m') input_download_url
                     job_type' uworker_env') w1 in
  res o = res o' /\
  world o = world o' /\
  trace o =
    ECall (tworker_preprocess m task_argument job_type uworker_env)
    :: trace o'
    ++ match res o' with
       | Returned _ => [ELog "Utask: done with preprocess and main."]
       | Raised _ => []
       end.
Proof.
  intros Hpre. unfold execute, UTask_execute, UworkerMainTask_execute.
  simpl. rewrite Hpre. split_answers; repeat split.
Qed.

(** X4: when preprocess returns an input, main on that input returns an
    output and postprocess returns, [UTaskLocalExecutor.execute] makes these
    three calls in this order, handing postprocess the output of main
    together with the input that preprocess returned, logs that it is done
    and reaches the end of its body in the world postprocess left. *)
Theorem UTaskLocalExecutor_execute_runs_three_phases m task_argument job_type
    uworker_env w uworker_input uworker_output w1 w2 w3 :
  h (tworker_preprocess_no_io m task_argument job_type uworker_env) w
  = (Returned (Some uworker_input), w1) ->
  h (uworker_main_no_io m uworker_input) w1
  = (Returned (Some uworker_output), w2) ->
  h (tworker_postprocess_no_io m uworker_output uworker_input) w2
  = (Returned tt, w3) ->
  run h (execute (new UTaskLocalExecutor m) task_argument job_type
           uworker_env) w
  = Outcome (Returned EndOfBody) w3
      [ ECall (tworker_preprocess_no_io m task_argument job_type uworker_env);
        ECall (uworker_main_no_io m uworker_input);
        ECall (tworker_postprocess_no_io m uworker_output uworker_input);
        ELog "Utask local: done." ].
Proof.
  intros Hpre Hmain Hpost. unfold execute, UTaskLocalExecutor_execute.
  simpl. rewrite Hpre. simpl. rewrite Hmain. simpl. now rewrite Hpost.
Qed.

Lemma dict_get_In V (k : string) (v : V) (d : dict V) :
  dict_get k d = Some v -> In (k, v) d.
Proof.
  induction d as [|[k' v'] d IH]; simpl; [discriminate|].
  destruct (String.eqb_spec k k') as [->|Hne].
  - intros [= ->]. now left.
  - intros Hget. right. now apply IH.
Qed.

(** X11: with the table as shipped, the tasks that call a URL helper of
    [utasks] are the two part tasks, "uworker_postprocess" and
    "uworker_main": for every other name of [COMMAND_MAP], [execute] of the
    bound task makes no such call, whatever its arguments and whatever the
    collaborators do. *)
Theorem shipped_tasks_leave_url_helpers_to_part_tasks (n : string) (t : task)
    task_argument job_type uworker_env w :
  dict_get n COMMAND_MAP = Some t ->
  n <> "uworker_postprocess" ->
  n <> "uworker_main" ->
  Forall (@no_io_call value)
    (trace (run h (execute t task_argument job_type uworker_env) w)).
Proof.
  intros Hget Hpost Hmain. apply dict_get_In in Hget.
  unfold COMMAND_MAP in Hget. simpl in Hget.
  repeat (destruct Hget as [Hget|Hget];
          [injection Hget as <- <-; try congruence;
           unfold execute, TrustedTask_execute, UTaskLocalExecutor_execute;
           split_answers; repeat constructor; discriminate|]).
  contradiction.
Qed.
End MoreStrategies.

(** ** Further properties of the factory and the queries *)

(** X1: [utask_factory] logs which executor it uses and returns a task on
    the module it was given; a table in which a name is then bound to that
    task reports the name as executed on several machines exactly when
    [in_memory] was false. *)
Theorem utask_factory_multimachine_iff_not_in_memory (E : Type -> Type)
    (W : Type) (h : handler E W) (w : W) (m : module) (in_memory : bool)
    (cm : dict task) (n : string) :
  exists t,
    run h (utask_factory m in_memory) w
    = Outcome (Returned t) w
        [ELog (if in_memory then "Using memory for utasks."
               else "Using GCS for utasks.")] /\
    task_module t = m /\
    is_multimachine_executed (dict_set n t cm) n = Returned (negb in_memory) /\
    get_multimachine_tasks (dict_set n t [])
    = Returned (if in_memory then [] else [n]).
Proof.
  exists (new (if in_memory then UTaskLocalExecutor else UTask) m).
  split; [now destruct in_memory|]. split; [reflexivity|]. split.
  - rewrite (@is_multimachine_executed_bound _ n
               (new (if in_memory then UTaskLocalExecutor else UTask) m)).
    + now destruct in_memory.
    + now rewrite dict_get_set, String.eqb_refl.
  - rewrite get_multimachine_tasks_filter. unfold bound_to, dict_keys.
    cbn [dict_set map fst filter dict_get]. rewrite String.eqb_refl.
    now destruct in_memory.
Qed.

Lemma assign_all_keys V (entries : list (string * V)) : forall d k,
  In k (dict_keys (assign_all entries d)) ->
  In k (dict_keys d) \/ In k (map fst entries).
Proof.
  induction entries as [|[k' v'] entries IH]; simpl; intros d k Hin.
  - now left.
  - apply IH in Hin. destruct Hin as [Hin|Hin]; [|now right; right].
    destruct (in_dec string_dec k' (dict_keys d)) as [Hk|Hk].
    + rewrite dict_keys_set_present in Hin by exact Hk. now left.
    + rewrite dict_keys_set_absent in Hin by exact Hk.
      unfold dict_keys in Hin. rewrite map_app in Hin.
      apply in_app_or in Hin. destruct Hin as [Hin|[<-|[]]].
      * now left.
      * right. now left.
Qed.

(** X10: on the table that a dict display builds,
    [get_multimachine_tasks] returns a list without repetition, made of
    names the display wrote: a name is in it exactly when the entry written
    last under that name is a [UTask]. *)
Theorem get_multimachine_tasks_of_display (entries : list (string * task)) :
  exists l,
    get_multimachine_tasks (dict_display entries) = Returned l /\
    NoDup l /\
    incl l (map fst entries) /\
    forall n, In n l <->
              exists t, written_last n entries = Some t /\ cls t = UTask.
Proof.
  exists (filter (bound_to (dict_display entries) UTask)
            (dict_keys (dict_display entries))).
  split; [apply get_multimachine_tasks_filter|]. split; [|split].
  - apply NoDup_filter, dict_display_NoDup.
  - intros n Hin. apply filter_In in Hin as [Hin _].
    apply assign_all_keys in Hin. destruct Hin as [[]|Hin]. exact Hin.
  - intros n. rewrite filter_In. unfold bound_to.
    rewrite dict_display_get. split.
    + intros [_ Hb]. destruct (written_last n entries) as [t|];
        [|discriminate]. exists t. split; [reflexivity|].
      now apply class_eqb_eq.
    + intros (t & Hlast & Hcls). rewrite Hlast. split.
      * destruct (in_dec string_dec n (dict_keys (dict_display entries)))
          as [Hin|Hnin]; [exact Hin|].
        apply dict_get_none_iff in Hnin. rewrite dict_display_get in Hnin.
        congruence.
      * now apply class_eqb_eq.
Qed.

(** ** Instances *)


(** The local executor on helpers whose main faults. *)
Lemma execute_fault_is_last_call_witness :
  let o := run main_faults
             (execute (new UTaskLocalExecutor fuzz_task) "argument" "job"
                "env") tt in
  exists X (c : ext string X) tr w0,
    trace o = tr ++ [ECall c] /\
    main_faults c w0 = (Raised (Fault "main failed"), world o) /\
    logged (trace o) = [].
Proof.
  apply (@execute_fault_is_last_call string unit main_faults
           (new UTaskLocalExecutor fuzz_task) "argument" "job" "env" tt
           (Fault "main failed")).
  - reflexivity.
  - discriminate.
Defined.

(** [UTask] on the sample helpers, against the main-only task. *)
Lemma UTask_execute_continues_as_main_task_witness :
  let h := sample_utasks true true in
  let o := run h (execute (new UTask fuzz_task) "argument" "job" "env") tt in
  let o' := run h (execute (new UworkerMainTask none_str) "in:argument"
                     "other job" "other env") tt in
  res o = res o' /\
  world o = world o' /\
  trace o =
    ECall (tworker_preprocess fuzz_task "argument" "job" "env")
    :: trace o'
    ++ match res o' with
       | Returned _ => [ELog "Utask: done with preprocess and main."]
       | Raised _ => []
       end.
Proof.
  apply (@UTask_execute_continues_as_main_task string unit
           (sample_utasks true true) fuzz_task none_str "argument" "job" "env"
           "other job" "other env" tt "in:argument" "out:argument" tt).
  reflexivity.
Defined.

(** The local executor on the sample helpers. *)
Lemma UTaskLocalExecutor_execute_runs_three_phases_witness :
  run (sample_utasks true true)
    (execute (new UTaskLocalExecutor fuzz_task) "argument" "job" "env") tt
  = Outcome (Returned EndOfBody) tt
      [ ECall (tworker_preprocess_no_io fuzz_task "argument" "job" "env");
        ECall (uworker_main_no_io fuzz_task "in:argument");
        ECall (tworker_postprocess_no_io fuzz_task "done:in:argument"
                 "in:argument");
        ELog "Utask local: done." ].
Proof.
  apply (@UTaskLocalExecutor_execute_runs_three_phases string unit
           (sample_utasks true true) fuzz_task "argument" "job" "env" tt
           "in:argument" "done:in:argument" tt tt tt);
    reflexivity.
Defined.

(** The shipped task "fuzz". *)
Lemma shipped_tasks_leave_url_helpers_to_part_tasks_witness :
  Forall (@no_io_call string)
    (trace (run (sample_utasks true true)
              (execute (new UTaskLocalExecutor fuzz_task) "argument" "job"
                 "env") tt)).
Proof.
  apply (@shipped_tasks_leave_url_helpers_to_part_tasks string unit
           (sample_utasks true true) "fuzz" (new UTaskLocalExecutor fuzz_task)
           "argument" "job" "env" tt).
  - reflexivity.
  - discriminate.
  - discriminate.
Defined.
